(** * SOLID assessment: a shallow embedding of the five refactored examples

    The repository holds five independent Python modules
    ([tasks/task_1.py] ... [tasks/task_5.py]), one per SOLID principle.
    Each module is embedded below in a [Module] of its own, after a common
    prelude that fixes the part of Python the five modules rely on: numbers
    ([int] and binary64 [float]), [None] and [str] values, f-strings handed
    to [print], and exceptions. A [str] is a string of characters that the
    console can encode. *)

From Stdlib Require Import ZArith Ascii String List Bool Lia.
From Stdlib Require Import SpecFloat.
From stdpp Require Import gmap strings list fin_maps.

Local Open Scope string_scope.
Local Open Scope Z_scope.

(** ** Python numbers *)

Module PyNum.

(** A Python [float] is an IEEE 754 binary64: 53 bits of precision,
    exponents below 1024. *)
Definition prec : Z := 53.
Definition emax : Z := 1024.

Abbreviation float64 := spec_float.

Inductive num : Type :=
  | PyInt (z : Z)
  | PyFloat (f : float64).

(** The exceptions the five modules can raise. The text of a message is not
    kept; an [AttributeError] keeps the class and the attribute it names. *)
Inductive exn : Type :=
  | AttributeError (cls attr : string)
  | OverflowError
  | TypeError
  | ValueError.

(** [str(z)] of an int is refused beyond [sys.int_max_str_digits] decimal
    digits, 4300 unless the interpreter is configured otherwise (CPython 3.11
    and later): the conversion raises [ValueError]. The sign is not
    counted. *)
Definition int_max_str_digits : nat := 4300.

Definition str_digits (z : Z) : nat :=
  Decimal.nb_digits (N.to_uint (Z.abs_N z)).

(** [float(z)]: the nearest binary64, ties to even; Python raises
    [OverflowError] where the rounding leaves the finite range. *)
Definition float_of_int (z : Z) : exn + float64 :=
  match binary_normalize prec emax z 0 false with
  | S754_infinity _ => inl OverflowError
  | f => inr f
  end.

(** [a * b] on numbers: exact on two ints, binary64 multiplication on two
    floats, and the int operand converted first when they are mixed. *)
Definition py_mul (a b : num) : exn + num :=
  match a, b with
  | PyInt x, PyInt y => inr (PyInt (x * y))
  | PyFloat x, PyFloat y => inr (PyFloat (SFmul prec emax x y))
  | PyInt x, PyFloat y =>
      match float_of_int x with
      | inl e => inl e
      | inr fx => inr (PyFloat (SFmul prec emax fx y))
      end
  | PyFloat x, PyInt y =>
      match float_of_int y with
      | inl e => inl e
      | inr fy => inr (PyFloat (SFmul prec emax x fy))
      end
  end.

(** [0 < a], as Python compares a number with the int [0]. *)
Definition positive (a : num) : bool :=
  match a with
  | PyInt z => 0 <? z
  | PyFloat f => SFltb (S754_zero false) f
  end.

(** A finite positive binary64 [m * 2^e] is the one nearest to the decimal
    fraction [p / q] when it is canonical and within half a unit in the last
    place of it: [|m * 2^e - p / q| <= 2^(e-1)], for [e < 0]. *)
Definition nearest_to (p q : Z) (f : float64) : Prop :=
  match f with
  | S754_finite false m e =>
      valid_binary prec emax f = true /\ e < 0 /\
      Z.abs (2 * q * Z.pos m - p * 2 ^ (1 - e)) <= q
  | _ => False
  end.

(** The float literals of [task_2.py]. *)
Definition lit_0_05 : float64 := S754_finite false 7205759403792794 (-57).
Definition lit_0_15 : float64 := S754_finite false 5404319552844595 (-55).
Definition lit_0_10 : float64 := S754_finite false 7205759403792794 (-56).

(** The floats [5.0], [10.0], [15.0] and [100.0]. *)
Definition f_5 : float64 := S754_finite false 5629499534213120 (-50).
Definition f_10 : float64 := S754_finite false 5629499534213120 (-49).
Definition f_15 : float64 := S754_finite false 8444249301319680 (-49).
Definition f_100 : float64 := S754_finite false 7036874417766400 (-46).

End PyNum.

(** ** Values, console output and exceptions *)

Module Py.
Export PyNum.

Inductive value : Type :=
  | PyNone
  | PyStr (s : string)
  | PyNum (n : num).

(** Truth value of an object in an [if]: [None], the empty string and a
    zero are false (a NaN is true). *)
Definition truthy (v : value) : bool :=
  match v with
  | PyNone => false
  | PyStr s => negb (String.eqb s "")
  | PyNum (PyInt z) => negb (z =? 0)
  | PyNum (PyFloat (S754_zero _)) => false
  | PyNum (PyFloat _) => true
  end.

(** An f-string is kept as its pieces: the literal text and the values
    interpolated into it, in order. How [format] renders a value is left to
    Python. One [print] call writes one line. *)
Inductive piece : Type :=
  | Lit (s : string)
  | Fmt (v : value).

Definition line : Type := list piece.

(** What running a piece of code gives: the value it returns or the
    exception it raises, and the lines printed until then. *)
Record outcome (A : Type) : Type := Outcome {
  result : exn + A;
  printed : list line
}.
Arguments Outcome {A} _ _.
Arguments result {A} _.
Arguments printed {A} _.

Definition raise {A : Type} (e : exn) : outcome A := Outcome (inl e) [].

(** Whether [format] renders the value: every value does, but an int of more
    than [int_max_str_digits] digits. *)
Definition formats (v : value) : bool :=
  match v with
  | PyNum (PyInt z) => Nat.leb (str_digits z) int_max_str_digits
  | _ => true
  end.

Definition piece_formats (p : piece) : bool :=
  match p with
  | Lit _ => true
  | Fmt v => formats v
  end.

(** [print(f"...")]: the f-string is built first, so when a value in it does
    not format, [ValueError] is raised and nothing is printed. *)
Definition print (l : line) : outcome unit :=
  if forallb piece_formats l
  then Outcome (inr tt) [l]
  else Outcome (inl ValueError) [].

(** Lifts the result of an expression that may raise. *)
Definition eval {A : Type} (r : exn + A) : outcome A := Outcome r [].

#[global] Instance outcome_ret : MRet outcome :=
  fun A a => Outcome (inr a) [].

#[global] Instance outcome_bind : MBind outcome :=
  fun A B k m =>
    match result m with
    | inl e => Outcome (inl e) (printed m)
    | inr a => Outcome (result (k a)) (printed m ++ printed (k a))
    end.

Definition returns {A : Type} (m : outcome A) (a : A) : Prop :=
  result m = inr a.

Definition raises {A : Type} (m : outcome A) (e : exn) : Prop :=
  result m = inl e.

End Py.

(** ** Classes, as far as attribute lookup and [isinstance] go *)

Module PyClass.
Import Py.

Section Classes.
(** What a class body binds a name to. *)
Context {M : Type}.

#[warnings="-register-all"] Inductive pyclass : Type :=
  | ClassDef (name : string) (bases : list pyclass) (body : list (string * M)).

Definition __name__ (c : pyclass) : string :=
  match c with ClassDef n _ _ => n end.

Definition __bases__ (c : pyclass) : list pyclass :=
  match c with ClassDef _ bs _ => bs end.

Definition __dict__ (c : pyclass) : list (string * M) :=
  match c with ClassDef _ _ d => d end.

(** The bindings of a class body, in the order of the source; a name bound
    twice keeps its last binding. *)
Fixpoint assoc (d : list (string * M)) (attr : string) : option M :=
  match d with
  | [] => None
  | (k, m) :: d' =>
      match assoc d' attr with
      | Some m' => Some m'
      | None => if String.eqb k attr then Some m else None
      end
  end.

(** Attribute lookup on the class: its own body first, then its bases from
    left to right. None of the hierarchies here binds one name in two
    bases, so this search finds what the method resolution order finds.
    Only the names that the class bodies of the modules bind are modelled:
    what every object inherits from [object] (names that start with an
    underscore, such as [__init__] or [__str__]) is not. *)
Fixpoint lookup_attr (c : pyclass) (attr : string) : option M :=
  match c with
  | ClassDef _ bs d =>
      match assoc d attr with
      | Some m => Some m
      | None =>
          (fix first (l : list pyclass) : option M :=
             match l with
             | [] => None
             | b :: l' =>
                 match lookup_attr b attr with
                 | Some m => Some m
                 | None => first l'
                 end
             end) bs
      end
  end.

Definition getattr (c : pyclass) (attr : string) : exn + M :=
  match lookup_attr c attr with
  | Some m => inr m
  | None => inl (AttributeError (__name__ c) attr)
  end.

Definition hasattr (c : pyclass) (attr : string) : bool :=
  match lookup_attr c attr with Some _ => true | None => false end.

(** [issubclass c d]: [d] is [c] or an ancestor of [c]. *)
Fixpoint issubclass (c : pyclass) (d : string) : bool :=
  match c with
  | ClassDef n bs _ =>
      String.eqb n d ||
      (fix any (l : list pyclass) : bool :=
         match l with
         | [] => false
         | b :: l' => issubclass b d || any l'
         end) bs
  end.

(** The names bound anywhere in the class or its ancestors. *)
Fixpoint dir (c : pyclass) : list string :=
  match c with
  | ClassDef _ bs d =>
      (map fst d ++
      (fix all (l : list pyclass) : list string :=
         match l with
         | [] => []
         | b :: l' => dir b ++ all l'
         end) bs)%list
  end.
End Classes.
Arguments pyclass : clear implicits.

End PyClass.

(** * Task 1: [UserManager] and [EmailNotifier] ([tasks/task_1.py]) *)

Module Task1.
Import Py.

Module UserManager.

(** [self._users]: the in-memory dict from user id to email. User ids are
    [str]; an email is any value. *)
Record t : Type := { _users : gmap string value }.

Definition __init__ : t := {| _users := ∅ |}.

(** A method that mutates [self] returns the object as it is afterwards. *)
Definition add_user (self : t) (user_id : string) (email : value) : outcome t :=
  print [Lit "Adding user "; Fmt (PyStr user_id); Lit " with email "; Fmt email];;
  mret {| _users := <[user_id := email]> (_users self) |}.

(** [dict.get] gives [None] for a missing key. *)
Definition get_user_email (self : t) (user_id : string) : outcome value :=
  mret (default PyNone (_users self !! user_id)).

Definition remove_user (self : t) (user_id : string) : outcome t :=
  match _users self !! user_id with
  | Some _ =>
      print [Lit "Removing user "; Fmt (PyStr user_id)];;
      mret {| _users := delete user_id (_users self) |}
  | None => mret self
  end.

End UserManager.

Module EmailNotifier.

Definition send_notification_email (email message : value) : outcome unit :=
  if truthy email then
    print [Lit "Attempting to send email to "; Fmt email; Lit ": '"; Fmt message; Lit "'"];;
    print [Lit "Simulated email sent."]
  else
    print [Lit "Could not send email: Email not found."].

End EmailNotifier.

(** The [__main__] block. *)
Definition main : outcome unit :=
  let manager := UserManager.__init__ in
  manager ← UserManager.add_user manager "user001" (PyStr "johndoe@gmail.com");
  email ← UserManager.get_user_email manager "user001";
  print [Lit "Retrieved email: "; Fmt email];;
  EmailNotifier.send_notification_email email (PyStr "SRP on Task 1 is done!!!").

End Task1.

(** * Task 2: [DiscountCalculator] and its strategies ([tasks/task_2.py]) *)

Module Task2.
Import Py PyClass.

(** The abstract base class: one method, [calculate_discount(amount)]. An
    instance also has a truth value, which [DiscountCalculator] tests; it is
    [True] unless a subclass defines [__bool__] or [__len__], and none of the
    three subclasses of the module does. *)
Module DiscountStrategy.
Record t : Type := {
  calculate_discount : num -> outcome num;
  __bool__ : bool
}.
End DiscountStrategy.

Module RegularDiscount.
Definition calculate_discount (amount : num) : outcome num :=
  discount ← eval (py_mul amount (PyFloat lit_0_05));
  print [Lit "Applying 5% regular discount: "; Fmt (PyNum discount)];;
  mret discount.

Definition new : DiscountStrategy.t :=
  {| DiscountStrategy.calculate_discount := calculate_discount;
     DiscountStrategy.__bool__ := true |}.
End RegularDiscount.

Module VIPDiscount.
Definition calculate_discount (amount : num) : outcome num :=
  discount ← eval (py_mul amount (PyFloat lit_0_15));
  print [Lit "Applying 15% VIP discount: "; Fmt (PyNum discount)];;
  mret discount.

Definition new : DiscountStrategy.t :=
  {| DiscountStrategy.calculate_discount := calculate_discount;
     DiscountStrategy.__bool__ := true |}.
End VIPDiscount.

Module PremiumDiscount.
Definition calculate_discount (amount : num) : outcome num :=
  discount ← eval (py_mul amount (PyFloat lit_0_10));
  print [Lit "Applying 10% premium discount: "; Fmt (PyNum discount)];;
  mret discount.

Definition new : DiscountStrategy.t :=
  {| DiscountStrategy.calculate_discount := calculate_discount;
     DiscountStrategy.__bool__ := true |}.
End PremiumDiscount.

Module DiscountCalculator.

Record t : Type := { _strategies : gmap string DiscountStrategy.t }.

Definition __init__ : t :=
  {| _strategies :=
       <["Premium" := PremiumDiscount.new]>
         (<["VIP" := VIPDiscount.new]>
            (<["Regular" := RegularDiscount.new]> ∅)) |}.

(** [if strategy:] fails for the [None] that [dict.get] gives on a missing
    key, and for a strategy object that is false. *)
Definition calculate_discount (self : t) (customer_type : string) (amount : num)
    : outcome num :=
  match _strategies self !! customer_type with
  | Some strategy =>
      if DiscountStrategy.__bool__ strategy
      then DiscountStrategy.calculate_discount strategy amount
      else mret (PyInt 0)
  | None => mret (PyInt 0)
  end.

(** The two [def]s of the class body. *)
Inductive method : Type :=
  | def___init__
  | def_calculate_discount.

Definition cls : pyclass method :=
  ClassDef "DiscountCalculator" []
    [("__init__", def___init__); ("calculate_discount", def_calculate_discount)].

End DiscountCalculator.

(** The [__main__] block. *)
Definition main : outcome unit :=
  let calculator := DiscountCalculator.__init__ in
  regular_discount ← DiscountCalculator.calculate_discount calculator "Regular" (PyInt 100);
  vip_discount ← DiscountCalculator.calculate_discount calculator "VIP" (PyInt 100);
  premium_discount ← DiscountCalculator.calculate_discount calculator "Premium" (PyInt 100);
  mret tt.

End Task2.

(** * Task 3: [Shape], [Rectangle] and [Square] ([tasks/task_3.py]) *)

Module Task3.
Import Py.

(** The abstract base class: one method, [calculate_area()]. *)
Class Shape (A : Type) := calculate_area : A -> outcome num.

Module Rectangle.
Record t : Type := { _width : num; _height : num }.

Definition __init__ (width height : num) : t :=
  {| _width := width; _height := height |}.

(** The property [width]: its getter and its setter. *)
Definition width (self : t) : num := _width self.

Definition set_width (self : t) (value : num) : t :=
  {| _width := value; _height := _height self |}.

(** The property [height]. *)
Definition height (self : t) : num := _height self.

Definition set_height (self : t) (value : num) : t :=
  {| _width := _width self; _height := value |}.

Definition calculate_area (self : t) : outcome num :=
  eval (py_mul (_width self) (_height self)).
End Rectangle.

Module Square.
Record t : Type := { _size : num }.

Definition __init__ (size : num) : t := {| _size := size |}.

(** The property [size]. *)
Definition size (self : t) : num := _size self.

Definition set_size (self : t) (value : num) : t := {| _size := value |}.

Definition calculate_area (self : t) : outcome num :=
  eval (py_mul (_size self) (_size self)).
End Square.

#[global] Instance Rectangle_Shape : Shape Rectangle.t := Rectangle.calculate_area.
#[global] Instance Square_Shape : Shape Square.t := Square.calculate_area.

(** An object of either concrete class, as a caller holding a [Shape] sees
    it; the call of [calculate_area] is dispatched on the class. *)
Inductive shape : Type :=
  | a_Rectangle (r : Rectangle.t)
  | a_Square (s : Square.t).

#[global] Instance shape_Shape : Shape shape :=
  fun sh =>
    match sh with
    | a_Rectangle r => Rectangle.calculate_area r
    | a_Square s => Square.calculate_area s
    end.

(** The dimensions a class exposes as properties, read and written by
    name. [None] stands for a name that is not a property of the class. *)
Definition properties (sh : shape) : list string :=
  match sh with
  | a_Rectangle _ => ["width"; "height"]
  | a_Square _ => ["size"]
  end.

Definition get_property (sh : shape) (name : string) : option num :=
  match sh with
  | a_Rectangle r =>
      if String.eqb name "width" then Some (Rectangle.width r)
      else if String.eqb name "height" then Some (Rectangle.height r)
      else None
  | a_Square s =>
      if String.eqb name "size" then Some (Square.size s) else None
  end.

Definition set_property (sh : shape) (name : string) (value : num) : option shape :=
  match sh with
  | a_Rectangle r =>
      if String.eqb name "width" then Some (a_Rectangle (Rectangle.set_width r value))
      else if String.eqb name "height" then Some (a_Rectangle (Rectangle.set_height r value))
      else None
  | a_Square s =>
      if String.eqb name "size" then Some (a_Square (Square.set_size s value)) else None
  end.

Definition print_area {A : Type} `{Shape A} (shape : A) : outcome unit :=
  area ← calculate_area shape;
  print [Lit "Area: "; Fmt (PyNum area)].

(** The [__main__] block. *)
Definition main : outcome unit :=
  let rect := Rectangle.__init__ (PyInt 10) (PyInt 5) in
  let sq := Square.__init__ (PyInt 10) in
  print [Lit "Testing Rectangle:"];;
  print_area rect;;
  print [Lit (String "010"%char "Testing Square:")];;
  print_area sq.

End Task3.

(** * Task 4: segregated worker interfaces ([tasks/task_4.py]) *)

Module Task4.
Import Py PyClass.

(** A class body binds a name to an abstract method (body [pass]) or to a
    method with a body; all methods here take [self] only. *)
Inductive member : Type :=
  | abstractmethod
  | method (body : outcome unit).

(** [ABC] binds no public name. *)
Definition ABC : pyclass member := ClassDef "ABC" [] [].

(** A public name: one that does not start with an underscore. The names a
    worker inherits from [object] and from [ABC] are not public. *)
Definition public (attr : string) : bool :=
  match attr with
  | String "_" _ => false
  | _ => true
  end.

Definition IWorkable : pyclass member :=
  ClassDef "IWorkable" [ABC] [("work", abstractmethod)].

Definition IEatable : pyclass member :=
  ClassDef "IEatable" [ABC] [("eat", abstractmethod)].

Definition ISleepable : pyclass member :=
  ClassDef "ISleepable" [ABC] [("sleep", abstractmethod)].

Definition HumanWorker : pyclass member :=
  ClassDef "HumanWorker" [IWorkable; IEatable; ISleepable]
    [("work", method (print [Lit "Human working..."]));
     ("eat", method (print [Lit "Human eating..."]));
     ("sleep", method (print [Lit "Human sleeping..."]))].

Definition RobotWorker : pyclass member :=
  ClassDef "RobotWorker" [IWorkable]
    [("work", method (print [Lit "Robot working..."]))].

Definition is_abstract (c : pyclass member) (attr : string) : bool :=
  match lookup_attr c attr with
  | Some abstractmethod => true
  | _ => false
  end.

(** The names that are still abstract in a class. *)
Definition __abstractmethods__ (c : pyclass member) : list string :=
  filter (fun attr => is_abstract c attr = true) (dir c).

Record object : Type := { __class__ : pyclass member }.

(** [c()]: a class derived from [ABC] with an abstract method left cannot
    be instantiated. This is the whole of instantiation for a class whose
    body binds public names only, as the classes of the module do: no
    [__init__] or [__new__] of its own runs. *)
Definition instantiate (c : pyclass member) : outcome object :=
  match __abstractmethods__ c with
  | [] => mret {| __class__ := c |}
  | _ => raise TypeError
  end.

Definition isinstance (o : object) (c : pyclass member) : bool :=
  issubclass (__class__ o) (__name__ c).

(** [o.attr()]: the attribute is looked up when the call runs. *)
Definition call (o : object) (attr : string) : outcome unit :=
  match getattr (__class__ o) attr with
  | inl e => raise e
  | inr abstractmethod => mret tt
  | inr (method body) => body
  end.

(** An object satisfies a capability when it is an instance of the
    interface and has a body for its method. *)
Definition satisfies (o : object) (interface : pyclass member) (attr : string) : bool :=
  isinstance o interface && hasattr (__class__ o) attr && negb (is_abstract (__class__ o) attr).

Fixpoint for_each {A : Type} (l : list A) (body : A -> outcome unit) : outcome unit :=
  match l with
  | [] => mret tt
  | x :: l' => body x;; for_each l' body
  end.

(** The [__main__] block. *)
Definition main : outcome unit :=
  human ← instantiate HumanWorker;
  robot ← instantiate RobotWorker;
  let workforce := [human; robot] in
  for_each workforce (fun worker => call worker "work");;
  (if isinstance human IEatable then call human "eat" else mret tt);;
  (if isinstance human ISleepable then call human "sleep" else mret tt).

End Task4.

(** * Task 5: [NotificationService] and its senders ([tasks/task_5.py]) *)

Module Task5.
Import Py.

(** The abstract base class: one method, [send(recipient, message)]. *)
Module IMessageSender.
Record t : Type := { send : value -> value -> outcome value }.
End IMessageSender.

Module EmailSender.
Definition send (recipient message : value) : outcome value :=
  print [Lit "Sending email to "; Fmt recipient; Lit ": '"; Fmt message; Lit "'"];;
  mret PyNone.

Definition new : IMessageSender.t := {| IMessageSender.send := send |}.
End EmailSender.

Module SMSSender.
Definition send (recipient message : value) : outcome value :=
  print [Lit "Sending SMS to "; Fmt recipient; Lit ": '"; Fmt message; Lit "'"];;
  mret PyNone.

Definition new : IMessageSender.t := {| IMessageSender.send := send |}.
End SMSSender.

Module NotificationService.
Record t : Type := { _sender : IMessageSender.t }.

Definition __init__ (message_sender : IMessageSender.t) : t :=
  {| _sender := message_sender |}.

(** The value [send] returns is dropped; the method returns [None]. *)
Definition send_notification (self : t) (user contact message : value) : outcome value :=
  print [Lit "Processing notification for "; Fmt user; Lit "..."];;
  IMessageSender.send (_sender self) contact message;;
  mret PyNone.
End NotificationService.

(** The [__main__] block. *)
Definition main : outcome value :=
  let email_sender := EmailSender.new in
  let sms_sender := SMSSender.new in
  let email_service := NotificationService.__init__ email_sender in
  NotificationService.send_notification email_service
    (PyStr "John") (PyStr "johndoe@gmail.com") (PyStr "Your order has shipped!");;
  let sms_service := NotificationService.__init__ sms_sender in
  NotificationService.send_notification sms_service
    (PyStr "John") (PyStr "+1234567890") (PyStr "Your order has shipped!").

End Task5.

(** * Properties *)

(** ** The outcome monad *)

Section OutcomeLaws.
Import Py.
Context {A B C : Type}.

Lemma mret_bind (a : A) (k : A -> outcome B) : (mret a ≫= k) = k a.
Proof. unfold mbind, outcome_bind; simpl. by destruct (k a). Qed.

Lemma bind_mret (m : outcome A) : (m ≫= mret) = m.
Proof.
  destruct m as [[e|a] out]; unfold mbind, outcome_bind; simpl; [done|].
  by rewrite app_nil_r.
Qed.

Lemma bind_assoc (m : outcome A) (k : A -> outcome B) (k' : B -> outcome C) :
  ((m ≫= k) ≫= k') = (m ≫= fun a => k a ≫= k').
Proof.
  destruct m as [[e|a] out]; unfold mbind, outcome_bind; simpl; [done|].
  destruct (k a) as [[e|b] out']; simpl; [done|].
  by rewrite app_assoc.
Qed.

(** What is printed before an exception stays printed. *)
Lemma printed_bind_prefix (m : outcome A) (k : A -> outcome B) :
  printed m `prefix_of` printed (m ≫= k).
Proof.
  destruct m as [[e|a] out]; unfold mbind, outcome_bind; simpl; [done|].
  by apply prefix_app_r.
Qed.

Lemma raises_bind (m : outcome A) (k : A -> outcome B) (e : exn) :
  raises m e -> raises (m ≫= k) e.
Proof. unfold raises, mbind, outcome_bind. by intros ->. Qed.
End OutcomeLaws.

(** ** Python numbers *)

Section Numbers.
Import PyNum.

(** The three literals are the binary64 values nearest to 5/100, 15/100 and
    10/100. *)
Lemma literals_correctly_rounded :
  nearest_to 5 100 lit_0_05 /\ nearest_to 15 100 lit_0_15 /\ nearest_to 10 100 lit_0_10.
Proof. repeat split; vm_compute; congruence. Qed.

Lemma float_constants :
  float_of_int 5 = inr f_5 /\ float_of_int 10 = inr f_10 /\
  float_of_int 15 = inr f_15 /\ float_of_int 100 = inr f_100.
Proof. by vm_compute. Qed.

(** Conversion rounds ties to even and overflows from [2^1024 - 2^970] on. *)
Example float_of_int_ties :
  float_of_int (2 ^ 53 + 1) = float_of_int (2 ^ 53) /\
  float_of_int (2 ^ 53 + 3) = float_of_int (2 ^ 53 + 4).
Proof. by vm_compute. Qed.

Example float_of_int_overflow :
  float_of_int (2 ^ 1024 - 2 ^ 970) = inl OverflowError /\
  float_of_int (2 ^ 1024 - 2 ^ 970 - 1) = inr (S754_finite false 9007199254740991 971).
Proof. by vm_compute. Qed.

Lemma py_mul_int (x y : Z) : py_mul (PyInt x) (PyInt y) = inr (PyInt (x * y)).
Proof. reflexivity. Qed.
End Numbers.

(** ** Task 1 *)

Section Task1Facts.
Import Py Task1 Task1.UserManager.
Implicit Types (self : UserManager.t) (user_id : string) (email : value).

(** Every [str] formats, and so does [None], a float and a falsy value. *)
Lemma str_formats (s : string) : formats (PyStr s) = true.
Proof. reflexivity. Qed.

Lemma falsy_formats (v : value) : truthy v = false -> formats v = true.
Proof.
  destruct v as [|s|[z|f]]; try reflexivity. simpl.
  intros Hz%negb_false_iff%Z.eqb_eq. by subst.
Qed.

Lemma add_user_outcome self user_id email :
  formats email = true ->
  add_user self user_id email =
  Outcome (inr {| _users := <[user_id := email]> (_users self) |})
    [[Lit "Adding user "; Fmt (PyStr user_id); Lit " with email "; Fmt email]].
Proof. intros Hf. unfold add_user, print; simpl. by rewrite Hf. Qed.

(** An email that does not format makes [add_user] raise at its [print],
    before the assignment: nothing is stored. *)
Lemma add_user_unformattable self user_id email :
  formats email = false ->
  add_user self user_id email = Outcome (inl ValueError) [].
Proof. intros Hf. unfold add_user, print; simpl. by rewrite Hf. Qed.

Lemma remove_user_present self user_id email :
  _users self !! user_id = Some email ->
  remove_user self user_id =
  Outcome (inr {| _users := delete user_id (_users self) |})
    [[Lit "Removing user "; Fmt (PyStr user_id)]].
Proof. intros H. unfold remove_user. by rewrite H. Qed.

Lemma get_user_email_present self user_id email :
  _users self !! user_id = Some email ->
  get_user_email self user_id = mret email.
Proof. intros H. unfold get_user_email. by rewrite H. Qed.

Lemma get_user_email_absent self user_id :
  _users self !! user_id = None ->
  get_user_email self user_id = mret PyNone.
Proof. intros H. unfold get_user_email. by rewrite H. Qed.

(** Adding or removing one user leaves the email of every other user as it
    was. *)
Lemma add_user_other self user_id email other :
  other ≠ user_id ->
  (self' ← add_user self user_id email; get_user_email self' other) =
  (add_user self user_id email;; get_user_email self other).
Proof.
  intros Hne. destruct (formats email) eqn:Hf.
  - rewrite add_user_outcome by done.
    unfold mbind, outcome_bind, get_user_email; simpl.
    by rewrite lookup_insert_ne.
  - by rewrite add_user_unformattable.
Qed.

Lemma remove_user_other self user_id other :
  other ≠ user_id ->
  (self' ← remove_user self user_id; get_user_email self' other) =
  (remove_user self user_id;; get_user_email self other).
Proof.
  intros Hne. unfold remove_user.
  destruct (_users self !! user_id) eqn:E; [|done].
  unfold mbind, outcome_bind, get_user_email; simpl.
  by rewrite lookup_delete_ne.
Qed.

(** C4. For every user id [u] and every email [e] that formats, every
    [str] among them, from any state of the [UserManager]: [add_user(u, e)]
    then [get_user_email(u)] returns [e], and after a further
    [remove_user(u)], [get_user_email(u)] returns [None]. *)
Theorem add_get_remove_get self user_id email :
  formats email = true ->
  returns (self1 ← add_user self user_id email;
           get_user_email self1 user_id) email /\
  returns (self1 ← add_user self user_id email;
           self2 ← remove_user self1 user_id;
           get_user_email self2 user_id) PyNone.
Proof.
  intros Hformats. rewrite add_user_outcome by done. unfold returns. split.
  - unfold mbind, outcome_bind, get_user_email; simpl.
    by rewrite lookup_insert_eq.
  - unfold mbind, outcome_bind, remove_user, get_user_email, print; simpl.
    rewrite lookup_insert_eq; simpl.
    by rewrite lookup_delete_eq.
Qed.

Lemma add_get_remove_get_witness :
  let self := {| _users := {["u0" := PyStr "z@x.com"]} |} in
  formats (PyStr "a@x.com") = true /\
  returns (self1 ← add_user self "u1" (PyStr "a@x.com");
           get_user_email self1 "u1") (PyStr "a@x.com") /\
  returns (self1 ← add_user self "u1" (PyStr "a@x.com");
           self2 ← remove_user self1 "u1";
           get_user_email self2 "u1") PyNone.
Proof.
  intros self. split; [reflexivity|].
  apply (add_get_remove_get self "u1" (PyStr "a@x.com")). reflexivity.
Defined.

(** C5. For every state of the [UserManager] and every user id absent from
    [_users], [remove_user] returns without raising, prints nothing and
    leaves the object, hence its mapping, as it was. *)
Theorem remove_user_absent self user_id :
  _users self !! user_id = None ->
  remove_user self user_id = Outcome (inr self) [].
Proof. intros H. unfold remove_user. by rewrite H. Qed.

Lemma remove_user_absent_witness :
  let self := {| _users := {["u1" := PyStr "a@x.com"]} |} in
  _users self !! "u2" = None /\
  remove_user self "u2" = Outcome (inr self) [].
Proof.
  intros self. split; [by vm_compute|].
  apply (remove_user_absent self "u2"). by vm_compute.
Defined.

(** C10. [add_user] on a user id that is already present overwrites the
    stored email: for all emails [e1] and [e2] that format, every [str]
    among them, after [add_user(u, e1)] and [add_user(u, e2)],
    [get_user_email(u)] returns [e2], and the mapping is the one a single
    [add_user(u, e2)] gives. *)
Theorem add_user_last_write_wins self user_id (e1 e2 : value) :
  formats e1 = true -> formats e2 = true ->
  returns (self1 ← add_user self user_id e1;
           self2 ← add_user self1 user_id e2;
           get_user_email self2 user_id) e2 /\
  result (self1 ← add_user self user_id e1; add_user self1 user_id e2) =
  result (add_user self user_id e2).
Proof.
  intros Hf1 Hf2. rewrite (add_user_outcome self user_id e1) by done.
  unfold returns, mbind at 1 3, outcome_bind at 1 3; simpl.
  rewrite !add_user_outcome by done.
  unfold mbind, outcome_bind, get_user_email; simpl. split.
  - by rewrite lookup_insert_eq.
  - by rewrite insert_insert_eq.
Qed.

Lemma add_user_last_write_wins_witness :
  formats (PyStr "a@x.com") = true /\ formats (PyStr "b@x.com") = true /\
  returns (self1 ← add_user __init__ "u1" (PyStr "a@x.com");
           self2 ← add_user self1 "u1" (PyStr "b@x.com");
           get_user_email self2 "u1") (PyStr "b@x.com").
Proof.
  split; [reflexivity|]. split; [reflexivity|].
  destruct (add_user_last_write_wins __init__ "u1" (PyStr "a@x.com") (PyStr "b@x.com"))
    as [Hlast _]; [reflexivity | reflexivity |].
  exact Hlast.
Defined.

(** The example of the specification: ["u1"] with ["a@x.com"]. *)
Example u1_added_then_removed :
  (m ← add_user __init__ "u1" (PyStr "a@x.com"); get_user_email m "u1") =
    Outcome (inr (PyStr "a@x.com"))
      [[Lit "Adding user "; Fmt (PyStr "u1"); Lit " with email "; Fmt (PyStr "a@x.com")]] /\
  (m ← add_user __init__ "u1" (PyStr "a@x.com");
   m ← remove_user m "u1";
   get_user_email m "u1") =
    Outcome (inr PyNone)
      [[Lit "Adding user "; Fmt (PyStr "u1"); Lit " with email "; Fmt (PyStr "a@x.com")];
       [Lit "Removing user "; Fmt (PyStr "u1")]].
Proof. by vm_compute. Qed.

(** Without a truthy email the notifier reports it and sends nothing. *)
Example notifier_without_email :
  EmailNotifier.send_notification_email PyNone (PyStr "hi") =
    print [Lit "Could not send email: Email not found."] /\
  EmailNotifier.send_notification_email (PyStr "") (PyStr "hi") =
    print [Lit "Could not send email: Email not found."].
Proof. by split. Qed.
End Task1Facts.

(** ** Task 2 *)

Section Task2Facts.
Import Py PyClass Task2 Task2.DiscountCalculator.
Implicit Types (self : DiscountCalculator.t) (customer_type : string) (amount : num).

(** The table built by [__init__] binds the three keys of the dict literal
    and no other. *)
Lemma default_table customer_type :
  _strategies __init__ !! customer_type =
    if decide (customer_type = "Premium") then Some PremiumDiscount.new
    else if decide (customer_type = "VIP") then Some VIPDiscount.new
    else if decide (customer_type = "Regular") then Some RegularDiscount.new
    else None.
Proof.
  unfold __init__; simpl.
  repeat (rewrite lookup_insert; case_decide; [by subst; repeat case_decide|]).
  rewrite lookup_empty. by repeat case_decide.
Qed.

Lemma default_table_unregistered customer_type :
  _strategies __init__ !! customer_type = None <->
  customer_type ≠ "Regular" /\ customer_type ≠ "VIP" /\ customer_type ≠ "Premium".
Proof.
  rewrite default_table. repeat case_decide; subst; split; try done; intros (? & ? & ?); done.
Qed.

(** On an int that converts to a float, the regular strategy returns the
    binary64 product of the amount by the literal, and prints it. *)
Lemma RegularDiscount_on_int (z : Z) (f : float64) :
  float_of_int z = inr f ->
  RegularDiscount.calculate_discount (PyInt z) =
    let discount := PyFloat (SFmul prec emax f lit_0_05) in
    Outcome (inr discount) [[Lit "Applying 5% regular discount: "; Fmt (PyNum discount)]].
Proof.
  intros H. unfold RegularDiscount.calculate_discount, py_mul. by rewrite H.
Qed.

(** An int too large for a float makes a strategy raise, before it prints. *)
Example RegularDiscount_overflow :
  RegularDiscount.calculate_discount (PyInt (2 ^ 1024)) = raise OverflowError.
Proof. by vm_compute. Qed.

(** C1. With the strategy table built by [__init__]:
    [calculate_discount("Regular", 100)] returns [5.0], ["VIP"] gives
    [15.0], ["Premium"] gives [10.0], and ["Unknown"] gives the int [0]. *)
Theorem default_discounts_of_100 :
  let calculator := __init__ in
  returns (calculate_discount calculator "Regular" (PyInt 100)) (PyFloat f_5) /\
  returns (calculate_discount calculator "VIP" (PyInt 100)) (PyFloat f_15) /\
  returns (calculate_discount calculator "Premium" (PyInt 100)) (PyFloat f_10) /\
  returns (calculate_discount calculator "Unknown" (PyInt 100)) (PyInt 0) /\
  float_of_int 5 = inr f_5 /\ float_of_int 15 = inr f_15 /\ float_of_int 10 = inr f_10.
Proof. by vm_compute. Qed.

(** The same calls with what they print. *)
Example default_discounts_printed :
  calculate_discount __init__ "Regular" (PyInt 100) =
    Outcome (inr (PyFloat f_5))
      [[Lit "Applying 5% regular discount: "; Fmt (PyNum (PyFloat f_5))]] /\
  calculate_discount __init__ "VIP" (PyInt 100) =
    Outcome (inr (PyFloat f_15))
      [[Lit "Applying 15% VIP discount: "; Fmt (PyNum (PyFloat f_15))]] /\
  calculate_discount __init__ "Premium" (PyInt 100) =
    Outcome (inr (PyFloat f_10))
      [[Lit "Applying 10% premium discount: "; Fmt (PyNum (PyFloat f_10))]] /\
  calculate_discount __init__ "Unknown" (PyInt 100) = Outcome (inr (PyInt 0)) [].
Proof. by vm_compute. Qed.

(** The amount [100.0] gives the same discounts as the int [100]. *)
Example default_discounts_of_float_100 :
  calculate_discount __init__ "Regular" (PyFloat f_100) =
    calculate_discount __init__ "Regular" (PyInt 100) /\
  calculate_discount __init__ "VIP" (PyFloat f_100) =
    calculate_discount __init__ "VIP" (PyInt 100) /\
  calculate_discount __init__ "Premium" (PyFloat f_100) =
    calculate_discount __init__ "Premium" (PyInt 100).
Proof. by vm_compute. Qed.

(** C2. For every key that the strategy table does not bind and every
    amount, [calculate_discount] returns the int [0]; it raises nothing and
    prints nothing. This holds for any table, the one built by [__init__]
    among them. *)
Theorem unregistered_key_gives_zero self customer_type amount :
  _strategies self !! customer_type = None ->
  calculate_discount self customer_type amount = Outcome (inr (PyInt 0)) [].
Proof. intros H. unfold calculate_discount. by rewrite H. Qed.

Lemma unregistered_key_gives_zero_witness :
  _strategies __init__ !! "Unknown" = None /\
  calculate_discount __init__ "Unknown" (PyFloat f_100) = Outcome (inr (PyInt 0)) [].
Proof.
  split; [by vm_compute|].
  apply (unregistered_key_gives_zero __init__ "Unknown" (PyFloat f_100)).
  by vm_compute.
Defined.

(** Every key other than the three of the dict literal is unregistered. *)
Lemma other_key_gives_zero customer_type amount :
  customer_type ≠ "Regular" -> customer_type ≠ "VIP" -> customer_type ≠ "Premium" ->
  calculate_discount __init__ customer_type amount = Outcome (inr (PyInt 0)) [].
Proof.
  intros. unfold calculate_discount.
  by rewrite (proj2 (default_table_unregistered customer_type)).
Qed.

(** C3, as the claim states it, fails: the class body of
    [DiscountCalculator] defines [__init__] and [calculate_discount] only.
    Looking up [register] on it raises [AttributeError], and the calculator
    returns [0] for a key ["Student"] whatever strategy one meant to bind to
    it, here one that gives the whole amount. *)
Lemma register_is_not_defined :
  let student :=
    {| DiscountStrategy.calculate_discount := fun amount => mret amount;
       DiscountStrategy.__bool__ := true |} in
  hasattr cls "register" = false /\
  getattr cls "register" = inl (AttributeError "DiscountCalculator" "register") /\
  returns (DiscountStrategy.calculate_discount student (PyInt 100)) (PyInt 100) /\
  returns (calculate_discount __init__ "Student" (PyInt 100)) (PyInt 0).
Proof. by vm_compute. Qed.

(** C3, amended. The calculator has no [register]; its table is the dict
    built in [__init__]. For every table, key, strategy whose truth value is
    [True] and amount: when the table binds the key to the strategy,
    [calculate_discount(key, amount)] is the call of that strategy on the
    amount, with its result and its output; this holds in particular of a
    table extended with a new entry, and the extension changes the result
    for no other key. [calculate_discount] itself is the same for all
    tables. *)
Theorem calculate_discount_dispatches self customer_type strategy amount :
  DiscountStrategy.__bool__ strategy = true ->
  (_strategies self !! customer_type = Some strategy ->
   calculate_discount self customer_type amount =
     DiscountStrategy.calculate_discount strategy amount) /\
  (let self' := {| _strategies := <[customer_type := strategy]> (_strategies self) |} in
   calculate_discount self' customer_type amount =
     DiscountStrategy.calculate_discount strategy amount /\
   forall other, other ≠ customer_type ->
     calculate_discount self' other amount = calculate_discount self other amount).
Proof.
  intros Htrue. unfold calculate_discount; simpl. repeat split.
  - intros H. by rewrite H, Htrue.
  - by rewrite lookup_insert_eq, Htrue.
  - intros other Hne. by rewrite lookup_insert_ne.
Qed.

Lemma calculate_discount_dispatches_witness :
  DiscountStrategy.__bool__ VIPDiscount.new = true /\
  _strategies __init__ !! "VIP" = Some VIPDiscount.new /\
  calculate_discount __init__ "VIP" (PyInt 100) = VIPDiscount.calculate_discount (PyInt 100).
Proof.
  split; [reflexivity|]. split; [reflexivity|].
  destruct (calculate_discount_dispatches __init__ "VIP" VIPDiscount.new (PyInt 100))
    as [Hbound _]; [reflexivity|].
  apply Hbound. reflexivity.
Defined.

(** A strategy object whose truth value is [False] is never invoked. *)
Lemma falsy_strategy_is_skipped self customer_type strategy amount :
  _strategies self !! customer_type = Some strategy ->
  DiscountStrategy.__bool__ strategy = false ->
  calculate_discount self customer_type amount = Outcome (inr (PyInt 0)) [].
Proof. intros H Hf. unfold calculate_discount. by rewrite H, Hf. Qed.
End Task2Facts.

(** ** Task 3 *)

Section Task3Facts.
Import Py Task3.

Lemma Rectangle_area (w h : num) :
  Rectangle.calculate_area (Rectangle.__init__ w h) = Outcome (py_mul w h) [].
Proof. reflexivity. Qed.

Lemma Square_area (s : num) :
  Square.calculate_area (Square.__init__ s) = Outcome (py_mul s s) [].
Proof. reflexivity. Qed.

(** C6. For all positive numbers [w], [h] and [s], the area of
    [Rectangle(w, h)] is the Python product [w * h] and the area of
    [Square(s)] is [s * s]; nothing is printed. On ints these are the exact
    integer products. *)
Theorem area_is_product (w h s : num) :
  positive w = true -> positive h = true -> positive s = true ->
  Rectangle.calculate_area (Rectangle.__init__ w h) = Outcome (py_mul w h) [] /\
  Square.calculate_area (Square.__init__ s) = Outcome (py_mul s s) [] /\
  (forall x y : Z, w = PyInt x -> h = PyInt y ->
     returns (Rectangle.calculate_area (Rectangle.__init__ w h)) (PyInt (x * y))) /\
  (forall x : Z, s = PyInt x ->
     returns (Square.calculate_area (Square.__init__ s)) (PyInt (x * x))).
Proof.
  intros _ _ _. repeat split.
  - by intros x y -> ->.
  - by intros x ->.
Qed.

Lemma area_is_product_witness :
  positive (PyInt 10) = true /\ positive (PyInt 5) = true /\
  Rectangle.calculate_area (Rectangle.__init__ (PyInt 10) (PyInt 5)) = Outcome (inr (PyInt 50)) [] /\
  Square.calculate_area (Square.__init__ (PyInt 10)) = Outcome (inr (PyInt 100)) [].
Proof.
  split; [reflexivity|]. split; [reflexivity|].
  destruct (area_is_product (PyInt 10) (PyInt 5) (PyInt 10)) as (Hr & Hs & _);
    [reflexivity | reflexivity | reflexivity |].
  split; [exact Hr | exact Hs].
Defined.

(** A float example: [2.5 * 4.0] is [10.0]. *)
Example area_of_floats :
  Rectangle.calculate_area
    (Rectangle.__init__ (PyFloat (S754_finite false 5629499534213120 (-51)))
                        (PyFloat (S754_finite false 4503599627370496 (-50)))) =
  Outcome (inr (PyFloat f_10)) [].
Proof. by vm_compute. Qed.

(** The area routine treats every shape alike: it prints the area the
    object's own class computes. *)
Lemma print_area_any_shape (sh : shape) (area : num) :
  returns (calculate_area sh) area ->
  printed (calculate_area sh) = [] ->
  print_area sh = print [Lit "Area: "; Fmt (PyNum area)].
Proof.
  unfold returns, print_area, mbind, outcome_bind. intros -> ->.
  by destruct (print [Lit "Area: "; Fmt (PyNum area)]).
Qed.

Lemma set_property_class (sh sh' : shape) (d : string) (v : num) :
  set_property sh d v = Some sh' -> properties sh' = properties sh.
Proof.
  destruct sh; simpl; repeat case_match; intros [= <-]; reflexivity.
Qed.

Lemma set_property_get (sh sh' : shape) (d : string) (v : num) :
  set_property sh d v = Some sh' -> get_property sh' d = Some v.
Proof.
  destruct sh; simpl; repeat case_match; intros [= <-]; simpl;
    repeat case_match; congruence.
Qed.

(** C7. For every [Rectangle] and value [v]: setting the width leaves the
    height unchanged and setting the height leaves the width unchanged. For
    every concrete shape, setting one property to [v] leaves every other
    property as it was ([Square] has the one property [size]). *)
Theorem setters_frame (r : Rectangle.t) (v : num) :
  Rectangle.height (Rectangle.set_width r v) = Rectangle.height r /\
  Rectangle.width (Rectangle.set_width r v) = v /\
  Rectangle.width (Rectangle.set_height r v) = Rectangle.width r /\
  Rectangle.height (Rectangle.set_height r v) = v /\
  forall (sh sh' : shape) (d d' : string),
    set_property sh d v = Some sh' -> d' ≠ d ->
    get_property sh' d' = get_property sh d'.
Proof.
  repeat split.
  intros sh sh' d d' Hset Hne.
  destruct sh as [r0|s0]; simpl in *.
  - destruct (String.eqb_spec d "width") as [->|Hw].
    + injection Hset as <-. simpl.
      destruct (String.eqb_spec d' "width"); [done|reflexivity].
    + destruct (String.eqb_spec d "height") as [->|Hh]; [|done].
      injection Hset as <-. simpl.
      destruct (String.eqb_spec d' "width"); [reflexivity|].
      destruct (String.eqb_spec d' "height"); [done|reflexivity].
  - destruct (String.eqb_spec d "size") as [->|Hs]; [|done].
    injection Hset as <-. simpl.
    destruct (String.eqb_spec d' "size"); [done|reflexivity].
Qed.

Lemma setters_frame_witness :
  let r := Rectangle.__init__ (PyInt 10) (PyInt 5) in
  set_property (a_Rectangle r) "width" (PyInt 20) =
    Some (a_Rectangle (Rectangle.set_width r (PyInt 20))) /\
  "height" ≠ "width" /\
  get_property (a_Rectangle (Rectangle.set_width r (PyInt 20))) "height" = Some (PyInt 5).
Proof.
  intros r. split; [reflexivity|]. split; [discriminate|].
  destruct (setters_frame r (PyInt 20)) as (_ & _ & _ & _ & Hframe).
  rewrite (Hframe (a_Rectangle r) (a_Rectangle (Rectangle.set_width r (PyInt 20)))
             "width" "height"); [reflexivity | reflexivity | discriminate].
Defined.

(** After a setter the area uses the new value and the old other one. *)
Lemma area_after_set_width (r : Rectangle.t) (v : num) :
  Rectangle.calculate_area (Rectangle.set_width r v) =
  Outcome (py_mul v (Rectangle.height r)) [].
Proof. reflexivity. Qed.

Lemma area_after_set_size (s : Square.t) (v : num) :
  Square.calculate_area (Square.set_size s v) = Outcome (py_mul v v) [].
Proof. reflexivity. Qed.

Example task3_main :
  main = Outcome (inr tt)
    [[Lit "Testing Rectangle:"]; [Lit "Area: "; Fmt (PyNum (PyInt 50))];
     [Lit (String "010"%char "Testing Square:")]; [Lit "Area: "; Fmt (PyNum (PyInt 100))]].
Proof. reflexivity. Qed.
End Task3Facts.

(** ** Task 4 *)

Section Task4Facts.
Import Py PyClass Task4.

Lemma interfaces_are_abstract :
  raises (instantiate IWorkable) TypeError /\
  raises (instantiate IEatable) TypeError /\
  raises (instantiate ISleepable) TypeError.
Proof. by vm_compute. Qed.

Lemma workers_instantiate :
  instantiate HumanWorker = mret {| __class__ := HumanWorker |} /\
  instantiate RobotWorker = mret {| __class__ := RobotWorker |}.
Proof. by vm_compute. Qed.

(** C8, as the claim states it, fails: [eat] and [sleep] can be invoked on a
    [RobotWorker], and the call fails when it runs, with [AttributeError]. *)
Lemma robot_eat_fails_at_run_time :
  raises (robot ← instantiate RobotWorker; call robot "eat")
    (AttributeError "RobotWorker" "eat") /\
  raises (robot ← instantiate RobotWorker; call robot "sleep")
    (AttributeError "RobotWorker" "sleep").
Proof. by vm_compute. Qed.

(** C8, amended. A [HumanWorker] satisfies the work, eat and sleep
    capabilities and a [RobotWorker] satisfies only work: it is an instance
    of [IWorkable] and of neither [IEatable] nor [ISleepable]. Invoking
    [eat] or [sleep] on a [RobotWorker] raises [AttributeError] when the
    call runs; the [isinstance] test that guards the call is false for
    it. *)
Theorem worker_capabilities :
  let human := {| __class__ := HumanWorker |} in
  let robot := {| __class__ := RobotWorker |} in
  returns (instantiate HumanWorker) human /\
  returns (instantiate RobotWorker) robot /\
  satisfies human IWorkable "work" = true /\
  satisfies human IEatable "eat" = true /\
  satisfies human ISleepable "sleep" = true /\
  call human "work" = print [Lit "Human working..."] /\
  call human "eat" = print [Lit "Human eating..."] /\
  call human "sleep" = print [Lit "Human sleeping..."] /\
  satisfies robot IWorkable "work" = true /\
  call robot "work" = print [Lit "Robot working..."] /\
  satisfies robot IEatable "eat" = false /\
  satisfies robot ISleepable "sleep" = false /\
  isinstance robot IEatable = false /\
  isinstance robot ISleepable = false /\
  call robot "eat" = raise (AttributeError "RobotWorker" "eat") /\
  call robot "sleep" = raise (AttributeError "RobotWorker" "sleep").
Proof. by vm_compute. Qed.

Example task4_main :
  main = Outcome (inr tt)
    [[Lit "Human working..."]; [Lit "Robot working..."];
     [Lit "Human eating..."]; [Lit "Human sleeping..."]].
Proof. by vm_compute. Qed.
End Task4Facts.

(** ** Task 5 *)

Section Task5Facts.
Import Py Task5 Task5.NotificationService.

(** C9. For every injected sender [s] and all [user], [contact] and
    [message], where [user] formats, as every [str] does:
    [send_notification] prints the one processing line and then runs
    [s.send(contact, message)] once, on these two arguments as given. What
    the call prints follows the processing line, an exception it raises is
    the exception of [send_notification], and otherwise the result is
    [None]. The same holds of the email and of the SMS sender, which differ
    in the constructor argument only; they print their line when [contact]
    and [message] format. *)
Theorem send_notification_delegates (s : IMessageSender.t) (user contact message : value) :
  formats user = true ->
  let sent := IMessageSender.send s contact message in
  let run := send_notification (__init__ s) user contact message in
  run = (print [Lit "Processing notification for "; Fmt user; Lit "..."];;
         sent;; mret PyNone) /\
  printed run = [Lit "Processing notification for "; Fmt user; Lit "..."] :: printed sent /\
  result run = match result sent with inl e => inl e | inr _ => inr PyNone end /\
  (formats contact = true -> formats message = true ->
   send_notification (__init__ EmailSender.new) user contact message =
     Outcome (inr PyNone)
       [[Lit "Processing notification for "; Fmt user; Lit "..."];
        [Lit "Sending email to "; Fmt contact; Lit ": '"; Fmt message; Lit "'"]] /\
   send_notification (__init__ SMSSender.new) user contact message =
     Outcome (inr PyNone)
       [[Lit "Processing notification for "; Fmt user; Lit "..."];
        [Lit "Sending SMS to "; Fmt contact; Lit ": '"; Fmt message; Lit "'"]]).
Proof.
  intros Huser. cbv zeta. split; [reflexivity|].
  unfold send_notification, print, mbind, outcome_bind; simpl.
  rewrite Huser; simpl.
  split; [|split; [|intros Hcontact Hmessage; split]].
  - destruct (IMessageSender.send s contact message) as [[e|v] out]; simpl; [done|].
    by rewrite app_nil_r.
  - by destruct (IMessageSender.send s contact message) as [[e|v] out].
  - unfold EmailSender.send, print, mbind, outcome_bind; simpl.
    by rewrite Hcontact, Hmessage.
  - unfold SMSSender.send, print, mbind, outcome_bind; simpl.
    by rewrite Hcontact, Hmessage.
Qed.

Lemma send_notification_delegates_witness :
  formats (PyStr "John") = true /\
  formats (PyStr "j@x.com") = true /\ formats (PyStr "hi") = true /\
  send_notification (__init__ EmailSender.new) (PyStr "John") (PyStr "j@x.com") (PyStr "hi") =
    Outcome (inr PyNone)
      [[Lit "Processing notification for "; Fmt (PyStr "John"); Lit "..."];
       [Lit "Sending email to "; Fmt (PyStr "j@x.com"); Lit ": '"; Fmt (PyStr "hi"); Lit "'"]] /\
  send_notification (__init__ SMSSender.new) (PyStr "John") (PyStr "j@x.com") (PyStr "hi") =
    Outcome (inr PyNone)
      [[Lit "Processing notification for "; Fmt (PyStr "John"); Lit "..."];
       [Lit "Sending SMS to "; Fmt (PyStr "j@x.com"); Lit ": '"; Fmt (PyStr "hi"); Lit "'"]].
Proof.
  split; [reflexivity|]. split; [reflexivity|]. split; [reflexivity|].
  destruct (send_notification_delegates EmailSender.new
              (PyStr "John") (PyStr "j@x.com") (PyStr "hi"))
    as (_ & _ & _ & Hsenders); [reflexivity|].
  apply Hsenders; reflexivity.
Defined.

(** A user that does not format: the processing [print] raises, and the
    sender is not called. *)
Lemma send_notification_unformattable_user
    (s : IMessageSender.t) (user contact message : value) :
  formats user = false ->
  send_notification (__init__ s) user contact message = Outcome (inl ValueError) [].
Proof.
  intros Huser. unfold send_notification, print, mbind, outcome_bind; simpl.
  by rewrite Huser.
Qed.

(** A sender that raises: the processing line is printed, the exception
    passes through. *)
Example failing_sender :
  let s := {| IMessageSender.send := fun _ _ => raise TypeError |} in
  send_notification (__init__ s) (PyStr "John") (PyStr "j@x.com") (PyStr "hi") =
  Outcome (inl TypeError)
    [[Lit "Processing notification for "; Fmt (PyStr "John"); Lit "..."]].
Proof. reflexivity. Qed.

Example task5_main :
  printed main =
    [[Lit "Processing notification for "; Fmt (PyStr "John"); Lit "..."];
     [Lit "Sending email to "; Fmt (PyStr "johndoe@gmail.com"); Lit ": '";
      Fmt (PyStr "Your order has shipped!"); Lit "'"];
     [Lit "Processing notification for "; Fmt (PyStr "John"); Lit "..."];
     [Lit "Sending SMS to "; Fmt (PyStr "+1234567890"); Lit ": '";
      Fmt (PyStr "Your order has shipped!"); Lit "'"]].
Proof. reflexivity. Qed.
End Task5Facts.

(** * Further properties of the five modules *)

(** ** Task 1: how the operations of [UserManager] compose *)

Section Task1Composition.
Import Py Task1 Task1.UserManager.
Implicit Types (self : UserManager.t) (user_id other : string) (email message : value).

(** X1. [add_user] touches one entry: when the email formats, as every
    [str] does, the email looked up for any other user id after the call is
    the one looked up before it. *)
Theorem add_user_keeps_others self user_id email other :
  formats email = true ->
  other ≠ user_id ->
  result (self' ← add_user self user_id email; get_user_email self' other) =
  result (get_user_email self other).
Proof.
  intros Hformats Hne. rewrite add_user_outcome by done.
  unfold mbind, outcome_bind, get_user_email; simpl.
  by rewrite lookup_insert_ne.
Qed.

Lemma add_user_keeps_others_witness :
  let self := {| _users := {["u1" := PyStr "a@x.com"]} |} in
  formats (PyStr "b@x.com") = true /\
  "u1" ≠ "u2" /\
  result (self' ← add_user self "u2" (PyStr "b@x.com"); get_user_email self' "u1") =
  inr (PyStr "a@x.com").
Proof.
  intros self. split; [reflexivity|]. split; [discriminate|].
  rewrite (add_user_keeps_others self "u2" (PyStr "b@x.com") "u1");
    [by vm_compute | reflexivity | discriminate].
Defined.

(** X2. From any state, whether the user is present or not, after
    [remove_user(u)] the lookup of [u] gives [None] and the lookup of every
    other user id gives what it gave before. *)
Theorem remove_user_effect self user_id other :
  returns (self' ← remove_user self user_id; get_user_email self' user_id) PyNone /\
  (other ≠ user_id ->
   result (self' ← remove_user self user_id; get_user_email self' other) =
   result (get_user_email self other)).
Proof.
  unfold returns, remove_user.
  destruct (_users self !! user_id) eqn:E;
    unfold mbind, outcome_bind, get_user_email; simpl; split.
  - by rewrite lookup_delete_eq.
  - intros Hne. by rewrite lookup_delete_ne.
  - by rewrite E.
  - done.
Qed.

Lemma remove_user_effect_witness :
  let self := {| _users := <["u2" := PyStr "b@x.com"]> {["u1" := PyStr "a@x.com"]} |} in
  "u1" ≠ "u2" /\
  result (self' ← remove_user self "u2"; get_user_email self' "u1") =
  inr (PyStr "a@x.com").
Proof.
  intros self. split; [discriminate|].
  destruct (remove_user_effect self "u2" "u1") as [_ Hother].
  rewrite Hother; [|discriminate]. by vm_compute.
Defined.

(** X3. [remove_user] is idempotent: removing the same user a second time
    changes nothing and prints nothing more, so the two calls in sequence
    are one call. *)
Theorem remove_user_twice self user_id :
  (self' ← remove_user self user_id; remove_user self' user_id) =
  remove_user self user_id.
Proof.
  destruct (_users self !! user_id) as [stored|] eqn:E.
  - rewrite (remove_user_present self user_id stored E).
    unfold mbind, outcome_bind, remove_user; simpl.
    by rewrite lookup_delete_eq.
  - unfold remove_user. rewrite E.
    unfold mbind, outcome_bind; simpl. by rewrite E.
Qed.

(** X4. Adding a user that was absent, with an email that formats, and
    removing it again gives back the manager as it was; both calls print
    their line. *)
Theorem add_then_remove_restores self user_id email :
  formats email = true ->
  _users self !! user_id = None ->
  (self1 ← add_user self user_id email; remove_user self1 user_id) =
  Outcome (inr self)
    [[Lit "Adding user "; Fmt (PyStr user_id); Lit " with email "; Fmt email];
     [Lit "Removing user "; Fmt (PyStr user_id)]].
Proof.
  intros Hformats Habsent. rewrite add_user_outcome by done.
  unfold mbind, outcome_bind, remove_user, print; simpl.
  rewrite lookup_insert_eq; simpl.
  rewrite delete_insert_id by done. by destruct self.
Qed.

Lemma add_then_remove_restores_witness :
  let self := {| _users := {["u1" := PyStr "a@x.com"]} |} in
  formats (PyStr "b@x.com") = true /\
  _users self !! "u2" = None /\
  result (self1 ← add_user self "u2" (PyStr "b@x.com"); remove_user self1 "u2") = inr self.
Proof.
  intros self. split; [reflexivity|]. split; [by vm_compute|].
  rewrite (add_then_remove_restores self "u2" (PyStr "b@x.com"));
    [reflexivity | reflexivity | by vm_compute].
Defined.

(** X5. Looking up a user that is absent and handing the result to the
    notifier sends nothing: the notifier reports that the email was not
    found, and raises nothing. *)
Theorem notify_absent_user self user_id message :
  _users self !! user_id = None ->
  (email ← get_user_email self user_id;
   EmailNotifier.send_notification_email email message) =
  Outcome (inr tt) [[Lit "Could not send email: Email not found."]].
Proof.
  intros Habsent. unfold get_user_email. rewrite Habsent. reflexivity.
Qed.

Lemma notify_absent_user_witness :
  _users __init__ !! "nobody" = None /\
  (email ← get_user_email __init__ "nobody";
   EmailNotifier.send_notification_email email (PyStr "hi")) =
  Outcome (inr tt) [[Lit "Could not send email: Email not found."]].
Proof.
  split; [by vm_compute|].
  apply (notify_absent_user __init__ "nobody" (PyStr "hi")). by vm_compute.
Defined.

(** X6. The notifier is given the stored email as it is: adding a user,
    looking its email up and notifying that address is adding the user and
    notifying the email that was passed to [add_user]. An email that is
    [None], empty or zero is stored all the same and then reported as not
    found. *)
Theorem notify_added_user self user_id email message :
  (self' ← add_user self user_id email;
   found ← get_user_email self' user_id;
   EmailNotifier.send_notification_email found message) =
  (add_user self user_id email;;
   EmailNotifier.send_notification_email email message) /\
  (truthy email = false ->
   printed (self' ← add_user self user_id email;
            found ← get_user_email self' user_id;
            EmailNotifier.send_notification_email found message) =
   [[Lit "Adding user "; Fmt (PyStr user_id); Lit " with email "; Fmt email];
    [Lit "Could not send email: Email not found."]]).
Proof.
  destruct (formats email) eqn:Hformats.
  - rewrite add_user_outcome by done.
    unfold mbind, outcome_bind, get_user_email; simpl.
    rewrite lookup_insert_eq; simpl. split; [reflexivity|].
    intros Hfalse. unfold EmailNotifier.send_notification_email.
    by rewrite Hfalse.
  - rewrite add_user_unformattable by done. split; [reflexivity|].
    intros Hfalse%falsy_formats. congruence.
Qed.

Lemma notify_added_user_witness :
  truthy (PyStr "") = false /\
  printed (self' ← add_user __init__ "u1" (PyStr "");
           found ← get_user_email self' "u1";
           EmailNotifier.send_notification_email found (PyStr "hi")) =
  [[Lit "Adding user "; Fmt (PyStr "u1"); Lit " with email "; Fmt (PyStr "")];
   [Lit "Could not send email: Email not found."]].
Proof.
  split; [reflexivity|].
  destruct (notify_added_user __init__ "u1" (PyStr "") (PyStr "hi")) as [_ Hfalsy].
  apply Hfalsy. reflexivity.
Defined.
End Task1Composition.

(** ** Task 2: what the calculator can and cannot give *)

Section Task2Outcomes.
Import Py PyClass Task2 Task2.DiscountCalculator.
Implicit Types (self : DiscountCalculator.t) (customer_type : string) (amount : num).

(** Converting an int to a float fails in one way only. *)
Lemma float_of_int_error (z : Z) (e : exn) :
  float_of_int z = inl e -> e = OverflowError.
Proof.
  unfold float_of_int. destruct (binary_normalize prec emax z 0 false); congruence.
Qed.

(** A product by a float is a float, and it fails only when the other
    operand is an int too large to convert. *)
Lemma py_mul_by_float (amount : num) (rate : float64) :
  (exists f, py_mul amount (PyFloat rate) = inr (PyFloat f)) \/
  (py_mul amount (PyFloat rate) = inl OverflowError /\
   exists z, amount = PyInt z /\ float_of_int z = inl OverflowError).
Proof.
  destruct amount as [z|f]; simpl.
  - destruct (float_of_int z) as [e|fz] eqn:E.
    + right. pose proof (float_of_int_error z e E) as ->. eauto.
    + left. eauto.
  - left. eauto.
Qed.

Lemma strategy_outcome (amount : num) (rate : float64) (text : string) :
  let run :=
    discount ← eval (py_mul amount (PyFloat rate));
    print [Lit text; Fmt (PyNum discount)];;
    mret discount in
  (exists f, run = Outcome (inr (PyFloat f)) [[Lit text; Fmt (PyNum (PyFloat f))]]) \/
  (run = Outcome (inl OverflowError) [] /\
   exists z, amount = PyInt z /\ float_of_int z = inl OverflowError).
Proof.
  simpl. destruct (py_mul_by_float amount rate) as [[f ->]|[-> Hint]].
  - left. by exists f.
  - right. by split.
Qed.

(** X7. With the table built by [__init__], a call of [calculate_discount]
    ends in one of three ways, for every key and amount. For a registered
    key it returns a float and prints one line that shows it, or, when the
    amount is an int whose conversion to a float overflows, raises
    [OverflowError] having printed nothing. For any other key it returns the
    int [0] and prints nothing. A registered key never gives an int and no
    other exception is raised. *)
Theorem default_calculator_outcomes customer_type amount :
  let run := calculate_discount __init__ customer_type amount in
  (exists f text,
     run = Outcome (inr (PyFloat f)) [[Lit text; Fmt (PyNum (PyFloat f))]] /\
     is_Some (_strategies __init__ !! customer_type)) \/
  (run = Outcome (inl OverflowError) [] /\
   (exists z, amount = PyInt z /\ float_of_int z = inl OverflowError) /\
   is_Some (_strategies __init__ !! customer_type)) \/
  (run = Outcome (inr (PyInt 0)) [] /\
   _strategies __init__ !! customer_type = None).
Proof.
  cbv zeta. unfold calculate_discount.
  destruct (_strategies __init__ !! customer_type) as [strategy|] eqn:E;
    [|by right; right].
  rewrite default_table in E.
  repeat case_decide; try discriminate; injection E as <-; simpl.
  - destruct (strategy_outcome amount lit_0_10 "Applying 10% premium discount: ")
      as [[f Hf]|[Hf Hint]].
    + left. exists f, "Applying 10% premium discount: ". by split.
    + right; left. by repeat split.
  - destruct (strategy_outcome amount lit_0_15 "Applying 15% VIP discount: ")
      as [[f Hf]|[Hf Hint]].
    + left. exists f, "Applying 15% VIP discount: ". by split.
    + right; left. by repeat split.
  - destruct (strategy_outcome amount lit_0_05 "Applying 5% regular discount: ")
      as [[f Hf]|[Hf Hint]].
    + left. exists f, "Applying 5% regular discount: ". by split.
    + right; left. by repeat split.
Qed.

(** X8. An int amount and the float it converts to get the same discount,
    with the same output, for every key of the table built by
    [__init__]. *)
Theorem int_and_float_amount_agree customer_type (z : Z) (f : float64) :
  float_of_int z = inr f ->
  calculate_discount __init__ customer_type (PyInt z) =
  calculate_discount __init__ customer_type (PyFloat f).
Proof.
  intros Hconv. unfold calculate_discount. rewrite default_table.
  repeat case_decide; simpl;
    unfold PremiumDiscount.calculate_discount, VIPDiscount.calculate_discount,
      RegularDiscount.calculate_discount, py_mul;
    by rewrite ?Hconv.
Qed.

Lemma int_and_float_amount_agree_witness :
  float_of_int 250 = inr (S754_finite false 8796093022208000 (-45)) /\
  calculate_discount __init__ "VIP" (PyInt 250) =
  calculate_discount __init__ "VIP" (PyFloat (S754_finite false 8796093022208000 (-45))).
Proof.
  split; [by vm_compute|].
  apply (int_and_float_amount_agree "VIP" 250). by vm_compute.
Defined.

(** X9. The dispatch tests the strategy object itself ([if strategy:]), so
    a registered strategy whose truth value is [False] is never invoked
    ([falsy_strategy_is_skipped]): the call returns the int [0] and prints
    nothing, as for a key that is not registered. Here the regular strategy
    is replaced by an object with the same method and a false truth
    value. *)
Lemma falsy_strategy_is_skipped_witness :
  let empty_strategy :=
    {| DiscountStrategy.calculate_discount := RegularDiscount.calculate_discount;
       DiscountStrategy.__bool__ := false |} in
  let self := {| _strategies := <["Regular" := empty_strategy]> (_strategies __init__) |} in
  _strategies self !! "Regular" = Some empty_strategy /\
  DiscountStrategy.__bool__ empty_strategy = false /\
  calculate_discount self "Regular" (PyInt 100) = Outcome (inr (PyInt 0)) [].
Proof.
  intros empty_strategy self. split; [apply lookup_insert_eq|]. split; [reflexivity|].
  apply (falsy_strategy_is_skipped self "Regular" empty_strategy (PyInt 100));
    [apply lookup_insert_eq | reflexivity].
Defined.
End Task2Outcomes.

(** ** Task 3: the area routine and the setters *)

Section Task3Composition.
Import Py Task3.

Lemma SFmul_comm (x y : float64) : SFmul prec emax x y = SFmul prec emax y x.
Proof.
  destruct x as [sx|sx| |sx mx ex], y as [sy|sy| |sy my ey]; unfold SFmul;
    try reflexivity; rewrite ?(xorb_comm sx sy); try reflexivity.
  by rewrite (Pos.mul_comm mx my), (Z.add_comm ex ey).
Qed.

(** The product of two numbers does not depend on their order, in what it
    returns and in what it raises. *)
Lemma py_mul_comm (a b : num) : py_mul a b = py_mul b a.
Proof.
  destruct a as [x|x], b as [y|y]; simpl.
  - by rewrite Z.mul_comm.
  - destruct (float_of_int x); [done|]. by rewrite SFmul_comm.
  - destruct (float_of_int y); [done|]. by rewrite SFmul_comm.
  - by rewrite SFmul_comm.
Qed.



(** X12. The setters compose as assignments to independent fields: the last
    value set for a dimension wins, setters of different dimensions commute,
    setting a dimension to its current value changes nothing, and a rectangle
    whose two dimensions were set is the rectangle built from these two
    values, with that area. After the width alone is set, the area is the new
    width times the old height. *)
Theorem setters_compose (r : Rectangle.t) (s : Square.t) (v v' : num) :
  Rectangle.set_width (Rectangle.set_width r v) v' = Rectangle.set_width r v' /\
  Rectangle.set_height (Rectangle.set_height r v) v' = Rectangle.set_height r v' /\
  Rectangle.set_width (Rectangle.set_height r v) v' =
    Rectangle.set_height (Rectangle.set_width r v') v /\
  Rectangle.set_height (Rectangle.set_width r v) v' = Rectangle.__init__ v v' /\
  Rectangle.set_width r (Rectangle.width r) = r /\
  Rectangle.set_height r (Rectangle.height r) = r /\
  Square.set_size (Square.set_size s v) v' = Square.__init__ v' /\
  Square.set_size s (Square.size s) = s /\
  Rectangle.calculate_area (Rectangle.set_height (Rectangle.set_width r v) v') =
    Rectangle.calculate_area (Rectangle.__init__ v v') /\
  Rectangle.calculate_area (Rectangle.set_width r v) =
    Outcome (py_mul v (Rectangle.height r)) [] /\
  Square.calculate_area (Square.set_size s v) =
    Square.calculate_area (Square.__init__ v).
Proof. destruct r, s. by repeat split. Qed.
End Task3Composition.

(** ** Task 4: what each worker answers to *)

Section Task4Calls.
Import Py PyClass Task4.

(** X13. Among the public names, those that do not start with an
    underscore, a [RobotWorker] answers to [work] and to no other: every
    other call raises [AttributeError] naming the class and the attribute. A
    [HumanWorker] answers to [work], [eat] and [sleep] and to no other
    public name. *)
Theorem calls_by_name (attr : string) :
  public attr = true ->
  call {| __class__ := RobotWorker |} attr =
    (if String.eqb "work" attr then print [Lit "Robot working..."]
     else raise (AttributeError "RobotWorker" attr)) /\
  call {| __class__ := HumanWorker |} attr =
    (if String.eqb "work" attr then print [Lit "Human working..."]
     else if String.eqb "eat" attr then print [Lit "Human eating..."]
     else if String.eqb "sleep" attr then print [Lit "Human sleeping..."]
     else raise (AttributeError "HumanWorker" attr)).
Proof.
  intros _. unfold call, getattr; cbn -[String.eqb print]. split.
  - by destruct (String.eqb "work" attr).
  - destruct (String.eqb "sleep" attr) eqn:Hsleep;
      destruct (String.eqb "eat" attr) eqn:Heat;
      destruct (String.eqb "work" attr) eqn:Hwork; try done;
      repeat match goal with
             | H : String.eqb _ attr = true |- _ => apply String.eqb_eq in H; subst attr
             end;
      by vm_compute in *.
Qed.

Lemma calls_by_name_witness :
  public "fly" = true /\
  call {| __class__ := RobotWorker |} "fly" = raise (AttributeError "RobotWorker" "fly") /\
  call {| __class__ := HumanWorker |} "fly" = raise (AttributeError "HumanWorker" "fly").
Proof.
  split; [reflexivity|].
  apply (calls_by_name "fly"). reflexivity.
Defined.

(** X14. The [isinstance] test is a sound guard: for a worker of either
    class and each of the three interfaces, when the worker is an instance
    of the interface, calling the method of that interface raises nothing
    and prints one line. *)
Theorem isinstance_guard_sound (worker : object) (interface : pyclass member) (attr : string) :
  __class__ worker = HumanWorker \/ __class__ worker = RobotWorker ->
  (interface, attr) ∈ [(IWorkable, "work"); (IEatable, "eat"); (ISleepable, "sleep")] ->
  isinstance worker interface = true ->
  exists l, call worker attr = Outcome (inr tt) [l].
Proof.
  intros Hclass Hinterface Hinstance.
  destruct worker as [c]; simpl in Hclass.
  apply list_elem_of_In in Hinterface; simpl in Hinterface.
  destruct Hclass as [-> | ->];
    destruct Hinterface as [[= <- <-]|[[= <- <-]|[[= <- <-]|[]]]];
    try (by vm_compute in Hinstance); eexists; reflexivity.
Qed.

Lemma isinstance_guard_sound_witness :
  let human := {| __class__ := HumanWorker |} in
  (__class__ human = HumanWorker \/ __class__ human = RobotWorker) /\
  (IEatable, "eat") ∈ [(IWorkable, "work"); (IEatable, "eat"); (ISleepable, "sleep")] /\
  isinstance human IEatable = true /\
  exists l, call human "eat" = Outcome (inr tt) [l].
Proof.
  intros human.
  assert (Hin : (IEatable, "eat") ∈
            [(IWorkable, "work"); (IEatable, "eat"); (ISleepable, "sleep")])
    by (apply list_elem_of_In; simpl; auto).
  split; [by left|]. split; [exact Hin|]. split; [reflexivity|].
  apply (isinstance_guard_sound human IEatable "eat"); [by left | exact Hin | reflexivity].
Defined.

(** X15. The loop over the workforce never fails: for every list of human
    and robot workers, in any order and of any length, calling [work] on
    each one raises nothing and prints one line per worker. *)
Theorem workforce_works (workforce : list object) :
  Forall (fun worker => __class__ worker = HumanWorker \/ __class__ worker = RobotWorker)
    workforce ->
  let run := for_each workforce (fun worker => call worker "work") in
  result run = inr tt /\ length (printed run) = length workforce.
Proof.
  induction 1 as [|worker workforce Hclass _ [IHr IHp]]; [done|].
  cbn [for_each]. unfold mbind, outcome_bind.
  assert (Hcall : exists l, call worker "work" = Outcome (inr tt) [l]).
  { destruct worker as [c]; simpl in Hclass.
    destruct Hclass as [-> | ->]; eexists; reflexivity. }
  destruct Hcall as [l ->]; simpl in *.
  split; [exact IHr | by rewrite IHp].
Qed.

Lemma workforce_works_witness :
  let robot := {| __class__ := RobotWorker |} in
  let human := {| __class__ := HumanWorker |} in
  let run := for_each [robot; human; robot] (fun worker => call worker "work") in
  result run = inr tt /\ length (printed run) = 3%nat.
Proof.
  intros robot human.
  apply (workforce_works [robot; human; robot]).
  repeat constructor; by (left + right).
Defined.

Lemma assoc_elem (body : list (string * member)) (attr : string) :
  attr ∈ map fst body -> is_Some (assoc body attr).
Proof.
  induction body as [|[k m] body IH]; simpl; [by intros ?%elem_of_nil|].
  intros [->|Hin]%elem_of_cons.
  - destruct (assoc body k); [done|]. by rewrite String.eqb_refl.
  - by destruct (IH Hin) as [m' ->].
Qed.

(** X16. A class that derives from [IWorkable] alone, whose body binds
    public names only and leaves none of them abstract, can be instantiated
    exactly when its body defines [work]; otherwise instantiating it raises
    [TypeError], as for the interface itself. *)
Theorem workable_subclass (name : string) (body : list (string * member)) :
  (forall attr, attr ∈ map fst body -> public attr = true) ->
  (forall attr, assoc body attr ≠ Some abstractmethod) ->
  instantiate (ClassDef name [IWorkable] body) =
    match assoc body "work" with
    | Some _ => mret {| __class__ := ClassDef name [IWorkable] body |}
    | None => raise TypeError
    end.
Proof.
  intros _ Hconcrete. unfold instantiate, __abstractmethods__.
  set (c := ClassDef name [IWorkable] body).
  assert (Hdir : dir c = (map fst body ++ ["work"])%list) by reflexivity.
  assert (Hown : forall attr, is_Some (assoc body attr) -> is_abstract c attr = false).
  { intros attr [m Hm]. unfold is_abstract; cbn -[String.eqb]. rewrite Hm.
    destruct m; [by apply Hconcrete in Hm|done]. }
  rewrite Hdir, filter_app.
  assert (Hbody : filter (fun attr => is_abstract c attr = true) (map fst body) = []).
  { apply elem_of_nil_inv. intros attr [Habs Hin]%list_elem_of_filter.
    apply assoc_elem, Hown in Hin. congruence. }
  rewrite Hbody; simpl.
  destruct (assoc body "work") as [m|] eqn:Hwork.
  - rewrite filter_cons_False; [done|].
    rewrite Hown; [done | by rewrite Hwork].
  - rewrite filter_cons_True; [done|].
    unfold is_abstract; cbn -[String.eqb]. by rewrite Hwork.
Qed.

Lemma workable_subclass_witness :
  let body := [("work", method (print [Lit "Robot working..."]))] in
  (forall attr, attr ∈ map fst body -> public attr = true) /\
  (forall attr, assoc body attr ≠ Some abstractmethod) /\
  instantiate RobotWorker = mret {| __class__ := RobotWorker |}.
Proof.
  intros body.
  assert (Hpublic : forall attr, attr ∈ map fst body -> public attr = true).
  { intros attr Hin. apply list_elem_of_In in Hin. simpl in Hin.
    destruct Hin as [<-|[]]. reflexivity. }
  assert (Hconcrete : forall attr, assoc body attr ≠ Some abstractmethod).
  { intros attr. cbn -[String.eqb print]. by destruct (String.eqb "work" attr). }
  split; [exact Hpublic|]. split; [exact Hconcrete|].
  exact (workable_subclass "RobotWorker" body Hpublic Hconcrete).
Defined.
End Task4Calls.
